(** * A shallow embedding of [main.py]: upload, ask and health handlers

    The service is a thin router around three collaborators it does not
    implement: the byte/text codec and the pandas parser and renderers, the
    file system holding [CSV_PATH], and the ollama client.  The collaborators
    are gathered in the class [Env]; every handler is a computation in a small
    state-and-exception monad over the [World] the handlers can observe or
    change.  Theorems quantify over every [Env] and every [World]. *)

From Stdlib Require Import ZArith Strings.Byte Ascii String.
From stdpp Require Import base option list strings gmap.

Open Scope string_scope.

(** ** Python values *)

(** Python [bytes]. *)
Abbreviation bytes := (list Byte.byte).

(** An exception raised by library code; [exc_text] is what [str(e)] gives. *)
Record PyError := mkPyError { exc_class : string; exc_text : string }.

(** What a handler can raise: any library exception deriving from
    [Exception], or fastapi's [HTTPException(status_code, detail)]. *)
Inductive exn :=
| PyException (e : PyError)
| HTTPException (status_code : Z) (detail : string).

(** A [pandas.DataFrame] as read from a CSV: the header, the dtype pandas
    inferred for each column from all of its rows, and the data rows. *)
Record DataFrame := mkDataFrame {
  columns : list string;
  dtypes : list string;
  rows : list (list string)
}.

(** [df.head()]: the first [n = 5] rows under the same header, each column
    keeping the dtype it has in the whole table. *)
Definition head (df : DataFrame) : DataFrame :=
  {| columns := columns df; dtypes := dtypes df; rows := take 5 (rows df) |}.

(** The keyword arguments of [ollama.generate]. *)
Record GenerateOptions := mkOptions { temperature : Z }.

Record GenerateRequest := mkRequest {
  req_model : string;
  req_prompt : string;
  req_options : GenerateOptions
}.

(** The mapping [ollama.generate] returns; only its ['response'] key is read. *)
Record GenerateResponse := mkGenerated { response : string }.

(** One entry of [ollama.list()['models']]: a mapping of which only the
    ['name'] key is read; [None] when the entry has no such key, so that
    [model['name']] raises [KeyError]. *)
Record ModelInfo := mkModel { name : option string }.

(** The object an [UploadFile] parameter is bound to: [await file.read()]
    gives the uploaded bytes or raises. *)
Record UploadFile := mkUpload { file_read : PyError + bytes }.

(** The JSON objects the handlers return. *)
Record UploadResult := mkUploadResult {
  message : string;
  result_columns : list string
}.

Record AskResult := mkAskResult { question : string; answer : string }.

Record HealthStatus := mkStatus {
  csv_loaded : bool;
  ollama_running : bool;
  model_available : bool
}.

(** ** Constants of the module *)

Definition OLLAMA_MODEL : string := "phi3".

Definition required_columns : gset string :=
  list_to_set ["date"; "product"; "quantity"; "total"].

Definition nl : string := String "010"%char EmptyString.

(** ** The collaborators *)

Class Env := {
  (** [contents.decode('utf-8')] *)
  decode_utf8 : bytes → PyError + string;
  (** [pd.read_csv(StringIO(text))] *)
  read_csv : string → PyError + DataFrame;
  (** [pd.read_csv(CSV_PATH)], as a function of the bytes stored there *)
  read_csv_file : bytes → PyError + DataFrame;
  (** the bytes [df.to_csv(CSV_PATH, index=False)] stores *)
  to_csv : DataFrame → bytes;
  (** whether storing the given bytes over the given old file fails *)
  write_fault : option bytes → bytes → option PyError;
  (** what is at [CSV_PATH] after a write that failed: [to_csv] opens the
      file for writing, which truncates it, before it writes, so a failing
      write can leave the old file, an empty one or a part of the new one *)
  write_residue : option bytes → bytes → option bytes;
  (** the iteration order of a Python set: some rearrangement of its elements *)
  hash_order : list string → list string;
  hash_order_perm : ∀ l, hash_order l ≡ₚ l;
  (** [DataFrame.to_markdown()], as it runs after the dependency check: it
      raises [ImportError] when pandas finds no tabulate it can use *)
  tabulate_render : DataFrame → PyError + string;
  (** [DataFrame.to_string()] *)
  to_string : DataFrame → PyError + string;
  (** [subprocess.run(["pip", "install", "tabulate"], check=True)]:
      [None] when pip exits with status 0 *)
  pip_install : option PyError;
  (** whether [import tabulate] succeeds after pip has exited with status 0:
      the code does not check *)
  importable_after_pip : bool;
  (** [ollama.generate(...)]: the backend may answer differently from one
      call to the next, so its answer depends on the calls made before *)
  ollama_generate : list GenerateRequest → GenerateRequest → PyError + GenerateResponse;
  (** [ollama.list()['models']] *)
  ollama_list : PyError + list ModelInfo;
  (** [traceback.format_exc()] while the exception is handled *)
  format_exc : exn → string;
  (** [str(e)] for an [HTTPException], which starlette defines *)
  http_exception_str : Z → string → string
}.

(** ** The world a handler runs in *)

Record World := mkWorld {
  (** the bytes at [CSV_PATH]; [None] when no file is there *)
  csv_file : option bytes;
  (** whether [import tabulate] succeeds *)
  tabulate_importable : bool;
  (** the calls [ollama.generate] has received, oldest first *)
  generate_calls : list GenerateRequest;
  (** the records written through [logger], oldest first *)
  logged : list string
}.

Definition set_csv_file (f : option bytes) (w : World) : World :=
  {| csv_file := f; tabulate_importable := tabulate_importable w;
     generate_calls := generate_calls w; logged := logged w |}.

Definition set_tabulate_importable (b : bool) (w : World) : World :=
  {| csv_file := csv_file w; tabulate_importable := b;
     generate_calls := generate_calls w; logged := logged w |}.

Definition add_generate_call (r : GenerateRequest) (w : World) : World :=
  {| csv_file := csv_file w; tabulate_importable := tabulate_importable w;
     generate_calls := generate_calls w ++ [r]; logged := logged w |}.

Definition add_log (s : string) (w : World) : World :=
  {| csv_file := csv_file w; tabulate_importable := tabulate_importable w;
     generate_calls := generate_calls w; logged := logged w ++ [s] |}.

(** ** The handler monad: state passing with exceptions *)

Definition M (A : Type) : Type := World → (exn + A) * World.

#[global] Instance M_ret : MRet M := λ A a w, (inr a, w).

#[global] Instance M_bind : MBind M := λ A B k m w,
  match m w with
  | (inr a, w') => k a w'
  | (inl e, w') => (inl e, w')
  end.

Definition raise {A} (e : exn) : M A := λ w, (inl e, w).

(** [try: body except Exception as e: handler e] (and the bare [except:]). *)
Definition try_except {A} (body : M A) (handler : exn → M A) : M A :=
  λ w, match body w with
       | (inr a, w') => (inr a, w')
       | (inl e, w') => handler e w'
       end.

(** The result of a library call, raised when it is an exception. *)
Definition lift {A} (r : PyError + A) : M A :=
  match r with
  | inr a => mret a
  | inl e => raise (PyException e)
  end.

(** [str(e)]. *)
Definition str `{Env} (e : exn) : string :=
  match e with
  | PyException pe => exc_text pe
  | HTTPException c d => http_exception_str c d
  end.

(** ** Primitive effects *)

(** [os.path.exists(CSV_PATH)] *)
Definition os_path_exists : M bool := λ w, (inr (bool_decide (is_Some (csv_file w))), w).

Definition logger_error (s : string) : M unit := λ w, (inr (), add_log s w).

Definition logger_info (s : string) : M unit := λ w, (inr (), add_log s w).

Section handlers.
Context `{Env}.

(** [df.to_csv(CSV_PATH, index=False)]: replaces the file at [CSV_PATH]
    by the serialised table, or raises and leaves there what the failed
    write left. *)
Definition df_to_csv (df : DataFrame) : M unit := λ w,
  match write_fault (csv_file w) (to_csv df) with
  | None => (inr (), set_csv_file (Some (to_csv df)) w)
  | Some e =>
      (inl (PyException e),
       set_csv_file (write_residue (csv_file w) (to_csv df)) w)
  end.

(** [pd.read_csv(CSV_PATH)] *)
Definition pd_read_csv_path : M DataFrame := λ w,
  match csv_file w with
  | Some b => lift (read_csv_file b) w
  | None => (inl (PyException (mkPyError "FileNotFoundError" "sales.csv")), w)
  end.

(** [df.to_markdown()]: pandas imports tabulate when it is called. *)
Definition to_markdown (df : DataFrame) : M string :=
  lift (tabulate_render df).

(** [ollama.generate(model=..., prompt=..., options=...)] *)
Definition generate (r : GenerateRequest) : M GenerateResponse := λ w,
  lift (ollama_generate (generate_calls w) r) (add_generate_call r w).

(** [repr] of one of the plain strings a set of column names holds. *)
Definition repr_str (s : string) : string := "'" +:+ s +:+ "'".

(** [str] of a non-empty Python set of strings. *)
Definition str_set (X : gset string) : string :=
  "{" +:+ String.concat ", " (repr_str <$> hash_order (elements X)) +:+ "}".

(** [import tabulate] *)
Definition import_tabulate : M unit := λ w,
  if tabulate_importable w then (inr (), w)
  else (inl (PyException (mkPyError "ModuleNotFoundError" "No module named 'tabulate'")), w).

(** [subprocess.run(["pip", "install", "tabulate"], check=True)]: raises
    when pip fails; when pip has exited with status 0 the module can be
    imported from then on or not, as the environment has it. *)
Definition subprocess_run_pip_install : M unit := λ w,
  match pip_install with
  | None => (inr (), set_tabulate_importable importable_after_pip w)
  | Some e => (inl (PyException e), w)
  end.

(** [except ImportError] also catches its subclass [ModuleNotFoundError]. *)
Definition is_ImportError (e : exn) : bool :=
  match e with
  | PyException pe =>
      bool_decide (exc_class pe = "ImportError" ∨ exc_class pe = "ModuleNotFoundError")
  | HTTPException _ _ => false
  end.

Definition install_missing_dependencies : M unit :=
  try_except import_tabulate
    (λ e, if is_ImportError e
          then logger_info "Instalando dependência tabulate...";;
               subprocess_run_pip_install
          else raise e).

Definition get_ollama_response (prompt : string) : M string :=
  try_except
    (generated ← generate {| req_model := OLLAMA_MODEL; req_prompt := prompt;
                              req_options := {| temperature := 0 |} |};
     mret (response generated))
    (λ e, logger_error ("Erro Ollama: " +:+ str e +:+ nl +:+ format_exc e);;
          raise (HTTPException 500 "Erro no servidor de modelos")).

(** [POST /upload] *)
Definition upload_file (file : UploadFile) : M UploadResult :=
  try_except
    (contents ← lift (file_read file);
     text ← lift (decode_utf8 contents);
     df ← lift (read_csv text);
     let missing := required_columns ∖ list_to_set (columns df) in
     (if bool_decide (missing ≠ ∅)
      then raise (PyException (mkPyError "ValueError"
                              ("Colunas faltando: " +:+ str_set missing)))
      else mret ());;
     df_to_csv df;;
     mret {| message := "Arquivo salvo com sucesso";
             result_columns := columns df |})
    (λ e, logger_error ("Upload error: " +:+ str e +:+ nl +:+ format_exc e);;
          raise (HTTPException 400 (str e))).

(** The f-string built in [ask]. *)
Definition context (data_preview question : string) : string :=
  nl +:+ "        Analise estes dados de vendas:" +:+ nl +:+
  "        " +:+ data_preview +:+ nl +:+
  nl +:+
  "        Pergunta: " +:+ question +:+ nl +:+
  "        Responda com valores exatos quando possível." +:+ nl +:+
  "        ".

(** [POST /ask] *)
Definition ask (question : string) : M AskResult :=
  install_missing_dependencies;;
  present ← os_path_exists;
  if negb present
  then raise (HTTPException 404 "Arquivo não encontrado. Faça upload primeiro.")
  else
    try_except
      (df ← pd_read_csv_path;
       data_preview ← try_except (to_markdown (head df))
                                 (λ _, lift (to_string (head df)));
       answer ← get_ollama_response (context data_preview question);
       mret {| question := question; answer := answer |})
      (λ e, match e with
            | HTTPException _ _ => raise e
            | PyException _ =>
                logger_error ("Analysis error: " +:+ str e +:+ nl +:+ format_exc e);;
                raise (HTTPException 500 "Erro ao processar a pergunta")
            end).

(** [any(model['name'] == wanted for model in models)]: the entries are
    looked at in order up to the first one with the wanted name, and an entry
    without a name on the way raises [KeyError]. *)
Fixpoint any_named (wanted : string) (models : list ModelInfo) : PyError + bool :=
  match models with
  | [] => inr false
  | model :: models =>
      match name model with
      | None => inl (mkPyError "KeyError" "'name'")
      | Some n => if bool_decide (n = wanted) then inr true
                  else any_named wanted models
      end
  end.

(** [GET /health] *)
Definition health_check : M HealthStatus :=
  try_except
    (present ← os_path_exists;
     let status := {| csv_loaded := present; ollama_running := false;
                      model_available := false |} in
     try_except
       (models ← lift ollama_list;
        available ← lift (any_named OLLAMA_MODEL models);
        mret {| csv_loaded := csv_loaded status; ollama_running := true;
                model_available := available |})
       (λ _, mret status))
    (λ e, logger_error ("Health check error: " +:+ str e);;
          raise (HTTPException 500 "Erro na verificação de saúde")).

End handlers.

(** ** What the client receives

    fastapi turns a returned object into a 200 response, an [HTTPException]
    into a response with its status and detail, and any other exception that
    leaves a handler into a plain 500 response. *)

Definition http_status {A} (r : exn + A) : Z :=
  match r with
  | inr _ => 200
  | inl (HTTPException c _) => c
  | inl (PyException _) => 500
  end.

Definition client_message (e : exn) : string :=
  match e with
  | HTTPException _ d => d
  | PyException _ => "Internal Server Error"
  end.

(** ** Text occurring inside text *)

(** [needle in hay], for Python strings. *)
Definition contains (needle hay : string) : Prop :=
  ∃ before after, hay = before +:+ needle +:+ after.

(** ** Properties of the collaborators *)

(** A backend with deterministic decoding: a request with temperature 0 gets
    the same result whatever calls came before it. *)
Definition deterministic_backend `{Env} : Prop :=
  ∀ (before before' : list GenerateRequest) (r : GenerateRequest),
    temperature (req_options r) = 0%Z →
    ollama_generate before r = ollama_generate before' r.

(** An entry of the listing that has a name, and not the wanted one. *)
Definition named_otherwise (wanted : string) (model : ModelInfo) : Prop :=
  ∃ n, name model = Some n ∧ n ≠ wanted.

(** The listing has an entry with the wanted name, and the entries before
    the first such one all have a name. *)
Definition scan_finds (wanted : string) (models : list ModelInfo) : Prop :=
  ∃ before model after,
    models = (before ++ model :: after)%list
    ∧ Forall (named_otherwise wanted) before ∧ name model = Some wanted.

(** The listing has an entry without a name, and no entry before it has
    the wanted name. *)
Definition scan_raises (wanted : string) (models : list ModelInfo) : Prop :=
  ∃ before model after,
    models = (before ++ model :: after)%list
    ∧ Forall (named_otherwise wanted) before ∧ name model = None.

(** The texts [ask] and [get_ollama_response] raise and log. *)
Definition not_found : string := "Arquivo não encontrado. Faça upload primeiro.".
Definition not_processed : string := "Erro ao processar a pergunta".
Definition backend_failed : string := "Erro no servidor de modelos".
Definition installing : string := "Instalando dependência tabulate...".

Definition analysis_error `{Env} (e : exn) : string :=
  "Analysis error: " +:+ str e +:+ nl +:+ format_exc e.

Definition ollama_error `{Env} (e : exn) : string :=
  "Erro Ollama: " +:+ str e +:+ nl +:+ format_exc e.

(** The preview [ask] ends up with is [preview true]: [to_markdown] of the
    head when it renders it, [to_string] of the head otherwise. *)
Definition preview `{Env} (tabulate : bool) (df : DataFrame) : PyError + string :=
  match (if tabulate then tabulate_render (head df)
         else inl (mkPyError "ImportError" "Missing optional dependency 'tabulate'."))
  with
  | inr text => inr text
  | inl _ => to_string (head df)
  end.

(** The request [get_ollama_response] makes for a preview and a question. *)
Definition sent (data_preview question : string) : GenerateRequest :=
  {| req_model := OLLAMA_MODEL; req_prompt := context data_preview question;
     req_options := {| temperature := 0 |} |}.

(** ** The runs of [ask], case by case *)

Section outcomes.
Context `{Env}.

(** How the dependency check gets through: tabulate is there, or pip
    installs it and the installation is logged. *)
Inductive installed (w : World) : World → Prop :=
| already_importable :
    tabulate_importable w = true → installed w w
| pip_installed :
    tabulate_importable w = false → pip_install = None →
    installed w (set_tabulate_importable importable_after_pip (add_log installing w)).

(** The result and final world of [ask question] started in [w]. *)
Inductive ask_outcome (question : string) (w : World) :
    (exn + AskResult) * World → Prop :=
| pip_failed e :
    tabulate_importable w = false → pip_install = Some e →
    ask_outcome question w (inl (PyException e), add_log installing w)
| no_table w1 :
    installed w w1 → csv_file w = None →
    ask_outcome question w (inl (HTTPException 404 not_found), w1)
| table_unreadable w1 b e :
    installed w w1 → csv_file w = Some b → read_csv_file b = inl e →
    ask_outcome question w
      (inl (HTTPException 500 not_processed),
       add_log (analysis_error (PyException e)) w1)
| table_unrendered w1 b df e :
    installed w w1 → csv_file w = Some b → read_csv_file b = inr df →
    preview true df = inl e →
    ask_outcome question w
      (inl (HTTPException 500 not_processed),
       add_log (analysis_error (PyException e)) w1)
| backend_error w1 b df p e :
    installed w w1 → csv_file w = Some b → read_csv_file b = inr df →
    preview true df = inr p →
    ollama_generate (generate_calls w) (sent p question) = inl e →
    ask_outcome question w
      (inl (HTTPException 500 backend_failed),
       add_log (ollama_error (PyException e)) (add_generate_call (sent p question) w1))
| answered w1 b df p g :
    installed w w1 → csv_file w = Some b → read_csv_file b = inr df →
    preview true df = inr p →
    ollama_generate (generate_calls w) (sent p question) = inr g →
    ask_outcome question w
      (inr {| question := question; answer := response g |},
       add_generate_call (sent p question) w1).

(** The exception raised inside the [try] of [upload_file file], if any. *)
Inductive upload_raises (file : UploadFile) (w : World) : PyError → Prop :=
| read_failed e :
    file_read file = inl e → upload_raises file w e
| not_utf8 contents e :
    file_read file = inr contents → decode_utf8 contents = inl e →
    upload_raises file w e
| not_csv contents text e :
    file_read file = inr contents → decode_utf8 contents = inr text →
    read_csv text = inl e →
    upload_raises file w e
| columns_missing contents text df :
    file_read file = inr contents → decode_utf8 contents = inr text →
    read_csv text = inr df →
    ¬ required_columns ⊆ list_to_set (columns df) →
    upload_raises file w
      (mkPyError "ValueError"
         ("Colunas faltando: " +:+
          str_set (required_columns ∖ list_to_set (columns df))))
| write_failed contents text df e :
    file_read file = inr contents → decode_utf8 contents = inr text →
    read_csv text = inr df →
    required_columns ⊆ list_to_set (columns df) →
    write_fault (csv_file w) (to_csv df) = Some e →
    upload_raises file w e.

End outcomes.

(** The fixed texts a failing [/ask] can put in a response. *)
Definition generic_messages : list string :=
  [ not_found; backend_failed; not_processed; "Internal Server Error" ].

(** ** A reference environment

    A small environment to run the handlers in: text is ASCII, a CSV has no
    quoting, the disk accepts every write, pip works and the backend answers
    every prompt with the same text.  The parts the examples below vary are
    arguments. *)

Module Reference.

Fixpoint split_on (sep : ascii) (s : string) : list string :=
  match s with
  | EmptyString => [EmptyString]
  | String c s' =>
      if Ascii.eqb c sep then EmptyString :: split_on sep s'
      else match split_on sep s' with
           | x :: xs => String c x :: xs
           | [] => [String c EmptyString]
           end
  end.

Definition decode_ascii (b : bytes) : PyError + string :=
  if forallb (λ x, Nat.ltb (Byte.to_nat x) 128) b
  then inr (string_of_list_byte b)
  else inl (mkPyError "UnicodeDecodeError"
              "'utf-8' codec can't decode byte 0xff in position 0: invalid start byte").

Definition parse_csv (text : string) : PyError + DataFrame :=
  match filter (λ l, l ≠ EmptyString) (split_on "010" text) with
  | [] => inl (mkPyError "EmptyDataError" "No columns to parse from file")
  | header :: lines =>
      inr {| columns := split_on "," header;
             dtypes := (λ _, "object") <$> split_on "," header;
             rows := split_on "," <$> lines |}
  end.

Definition unparse_csv (df : DataFrame) : bytes :=
  list_byte_of_string
    (String.concat EmptyString ((λ r, String.concat "," r +:+ nl) <$> (columns df :: rows df))).

Definition render (sep : string) (df : DataFrame) : PyError + string :=
  inr (String.concat nl (String.concat sep <$> (columns df :: rows df))).

Definition build (disk : option bytes → bytes → option PyError)
    (residue : option bytes → bytes → option bytes)
    (pip : option PyError) (after_pip : bool)
    (backend : list GenerateRequest → GenerateRequest → PyError + GenerateResponse)
    (models : PyError + list ModelInfo) : Env :=
  {| decode_utf8 := decode_ascii;
     read_csv := parse_csv;
     read_csv_file := λ b, match decode_ascii b with
                           | inr text => parse_csv text
                           | inl e => inl e
                           end;
     to_csv := unparse_csv;
     write_fault := disk;
     write_residue := residue;
     hash_order := id;
     hash_order_perm := λ l, reflexivity l;
     tabulate_render := render " | ";
     to_string := render "  ";
     pip_install := pip;
     importable_after_pip := after_pip;
     ollama_generate := backend;
     ollama_list := models;
     format_exc := λ e, "Traceback (most recent call last):";
     http_exception_str := λ c d, d |}.

(** A disk that refuses a write refuses it when the file is opened and
    leaves the file as it was; what pip installs can be imported. *)
Definition env (disk : option bytes → bytes → option PyError)
    (pip : option PyError)
    (backend : list GenerateRequest → GenerateRequest → PyError + GenerateResponse)
    (models : PyError + list ModelInfo) : Env :=
  build disk (λ old _, old) pip true backend models.

Definition writable : option bytes → bytes → option PyError := λ _ _, None.

Definition read_only : option bytes → bytes → option PyError :=
  λ _ _, Some (mkPyError "PermissionError" "[Errno 13] Permission denied: 'sales.csv'").

Definition steady_backend : list GenerateRequest → GenerateRequest → PyError + GenerateResponse :=
  λ _ r, inr {| response := "Total: 50.0" |}.

Definition std : Env :=
  env writable None steady_backend (inr [ {| name := Some "phi3" |} ]).

(** A machine where pip cannot install anything. *)
Definition offline : Env :=
  env writable
    (Some (mkPyError "CalledProcessError"
       "Command '['pip', 'install', 'tabulate']' returned non-zero exit status 1."))
    steady_backend (inr [ {| name := Some "phi3" |} ]).

(** A disk that refuses the write. *)
Definition locked : Env :=
  env read_only None steady_backend (inr [ {| name := Some "phi3" |} ]).

(** A fresh deployment: no table stored, tabulate installed. *)
Definition fresh : World :=
  {| csv_file := None; tabulate_importable := true;
     generate_calls := []; logged := [] |}.

Definition upload_of (text : string) : UploadFile :=
  {| file_read := inr (list_byte_of_string text) |}.

(** The upload of the scenario in the specification. *)
Definition sales : UploadFile :=
  upload_of ("date,product,quantity,total" +:+ nl +:+ "2024-01-01,Widget,5,50.0").

Definition sales_table : DataFrame :=
  {| columns := ["date"; "product"; "quantity"; "total"];
     dtypes := ["object"; "object"; "object"; "object"];
     rows := [["2024-01-01"; "Widget"; "5"; "50.0"]] |}.

(** A fresh deployment on which tabulate is not installed. *)
Definition bare : World :=
  {| csv_file := None; tabulate_importable := false;
     generate_calls := []; logged := [] |}.

(** An upload that is not UTF-8. *)
Definition binary : UploadFile := {| file_read := inr [xff] |}.

(** The same upload without its [total] column. *)
Definition no_total : UploadFile :=
  upload_of ("date,product,quantity" +:+ nl +:+ "2024-01-01,Widget,5").

End Reference.

(** ** A reference environment whose backend is down *)

Module Scenarios.

Definition refused : PyError :=
  mkPyError "ConnectionError" "Failed to connect to Ollama.".

(** The reference environment with no backend listening. *)
Definition backend_down : Env :=
  Reference.env Reference.writable None (λ _ _, inl refused) (inl refused).

(** The reference deployment once the scenario's table is stored. *)
Definition loaded : World :=
  {| csv_file := Some (Reference.unparse_csv Reference.sales_table);
     tabulate_importable := true; generate_calls := []; logged := [] |}.

(** A disk that fills up while the table is written: the file has been
    opened, and so emptied, when the write raises. *)
Definition disk_full : Env :=
  Reference.build
    (λ _ _, Some (mkPyError "OSError" "[Errno 28] No space left on device"))
    (λ _ _, Some [])
    None true Reference.steady_backend (inr [ {| name := Some "phi3" |} ]).

(** A backend whose listing returns, with an entry that has no ['name']. *)
Definition nameless_listing : Env :=
  Reference.env Reference.writable None Reference.steady_backend
    (inr [ {| name := None |} ]).

(** Two tables with the same header, the same dtypes and the same first
    five rows. *)
Definition six_rows : DataFrame :=
  {| columns := ["date"; "product"; "quantity"; "total"];
     dtypes := ["object"; "object"; "object"; "object"];
     rows := [ ["2024-01-01"; "Widget"; "5"; "50.0"];
               ["2024-01-02"; "Widget"; "1"; "10.0"];
               ["2024-01-03"; "Gadget"; "2"; "30.0"];
               ["2024-01-04"; "Gadget"; "1"; "15.0"];
               ["2024-01-05"; "Widget"; "3"; "30.0"];
               ["2024-01-06"; "Gadget"; "4"; "60.0"] ] |}.

Definition seven_rows : DataFrame :=
  {| columns := columns six_rows;
     dtypes := dtypes six_rows;
     rows := (take 5 (rows six_rows) ++
              [ ["2024-01-07"; "Widget"; "9"; "90.0"];
                ["2024-01-08"; "Gadget"; "7"; "105.0"] ])%list |}.

End Scenarios.

(** * Lemmas *)

Lemma string_app_assoc (a b c : string) : (a +:+ b) +:+ c = a +:+ b +:+ c.
Proof.
  induction a as [|ch a IH]; [done |].
  change (String ch ((a +:+ b) +:+ c) = String ch (a +:+ b +:+ c)).
  by rewrite IH.
Qed.

Lemma string_app_nil_r (a : string) : a +:+ EmptyString = a.
Proof.
  induction a as [|ch a IH]; [done |].
  change (String ch (a +:+ EmptyString) = String ch a). by rewrite IH.
Qed.

Lemma contains_refl s : contains s s.
Proof.
  exists EmptyString, EmptyString.
  change (s = s +:+ EmptyString). by rewrite string_app_nil_r.
Qed.

Lemma contains_app_l needle before hay :
  contains needle hay → contains needle (before +:+ hay).
Proof.
  intros (p & q & ->). exists (before +:+ p), q.
  by rewrite string_app_assoc.
Qed.

Lemma contains_app_r needle hay after :
  contains needle hay → contains needle (hay +:+ after).
Proof.
  intros (p & q & ->). exists p, (q +:+ after).
  by rewrite !string_app_assoc.
Qed.

Lemma contains_here needle after : contains needle (needle +:+ after).
Proof. apply contains_app_r, contains_refl. Qed.

Lemma contains_trans a b c : contains a b → contains b c → contains a c.
Proof.
  intros Hab (p & q & ->). by apply contains_app_l, contains_app_r.
Qed.

Lemma contains_concat sep x (l : list string) :
  x ∈ l → contains x (String.concat sep l).
Proof.
  induction 1 as [x l | x y l Hin IH].
  - destruct l; simpl; [apply contains_refl | apply contains_here].
  - destruct l as [|z l]; [by apply elem_of_nil in Hin |].
    change (String.concat sep (y :: z :: l))
      with (y +:+ sep +:+ String.concat sep (z :: l)).
    by do 2 apply contains_app_l.
Qed.

Create HintDb contains.

#[global] Hint Resolve contains_refl contains_here contains_app_l contains_app_r : contains.

(** ** Running a handler *)

(** Unfold the monad operations and reduce the matches they expose. *)
Ltac run :=
  cbv [mbind M_bind mret M_ret try_except raise lift logger_error logger_info
       os_path_exists fst snd http_status].

(** Reduce the projections of an updated world. *)
Ltac fields :=
  cbn [fst snd csv_file tabulate_importable generate_calls logged
       set_csv_file set_tabulate_importable add_generate_call add_log].

Ltac fields_all :=
  cbn [fst snd csv_file tabulate_importable generate_calls logged
       set_csv_file set_tabulate_importable add_generate_call add_log] in *.

Section upload.
Context `{Env}.

Lemma missing_empty (X Y : gset string) : X ⊆ Y ↔ X ∖ Y = ∅.
Proof.
  split.
  - intros HXY. apply set_eq. intros x.
    rewrite elem_of_difference, elem_of_empty.
    split; [intros [Hx Hn]; apply Hn, HXY, Hx | done].
  - intros Hd x Hx. destruct (decide (x ∈ Y)) as [|Hn]; [done |].
    assert (x ∈ X ∖ Y) as Hin by (by apply elem_of_difference).
    rewrite Hd in Hin. by apply elem_of_empty in Hin.
Qed.

Lemma str_set_names (X : gset string) c : c ∈ X → contains c (str_set X).
Proof.
  intros Hc. unfold str_set.
  apply contains_app_l, contains_app_r.
  apply contains_trans with (repr_str c).
  { unfold repr_str. apply contains_app_l, contains_here. }
  apply contains_concat, list_elem_of_fmap. exists c. split; [done |].
  rewrite hash_order_perm. by apply elem_of_elements.
Qed.

(** A run of [upload_file] in which nothing is raised. *)
Lemma upload_file_stored (file : UploadFile) (w : World)
    (contents : bytes) (text : string) (df : DataFrame) :
  file_read file = inr contents →
  decode_utf8 contents = inr text →
  read_csv text = inr df →
  required_columns ⊆ list_to_set (columns df) →
  write_fault (csv_file w) (to_csv df) = None →
  upload_file file w =
    (inr {| message := "Arquivo salvo com sucesso"; result_columns := columns df |},
     set_csv_file (Some (to_csv df)) w).
Proof.
  intros Hread Hdec Hparse Hreq Hwrite.
  apply missing_empty in Hreq.
  unfold upload_file, df_to_csv. run.
  rewrite Hread, Hdec, Hparse, Hreq.
  rewrite bool_decide_eq_false_2 by (intros Hne; by apply Hne).
  by rewrite Hwrite.
Qed.

(** C1, as the code has it: when the upload can be read, decodes, parses
  to a table whose header has the four required columns, and the write to
  [CSV_PATH] goes through, [upload_file] returns its success object, whose
  [columns] are the parsed header as it is, and the table is stored. *)
Theorem upload_file_succeeds (file : UploadFile) (w : World)
    (contents : bytes) (text : string) (df : DataFrame) :
  file_read file = inr contents →
  decode_utf8 contents = inr text →
  read_csv text = inr df →
  required_columns ⊆ list_to_set (columns df) →
  write_fault (csv_file w) (to_csv df) = None →
  (upload_file file w).1 =
    inr {| message := "Arquivo salvo com sucesso"; result_columns := columns df |}
  ∧ http_status (upload_file file w).1 = 200%Z
  ∧ csv_file (upload_file file w).2 = Some (to_csv df).
Proof.
  intros Hread Hdec Hparse Hreq Hwrite.
  by rewrite (upload_file_stored _ _ _ _ _ Hread Hdec Hparse Hreq Hwrite).
Qed.

(** C2: when the parsed header lacks one of the required columns, the
  upload is answered with status 400, the detail contains the name of every
  required column the header lacks, and the file at [CSV_PATH] is what it
  was before the call. *)
Theorem upload_file_missing_columns (file : UploadFile) (w : World)
    (contents : bytes) (text : string) (df : DataFrame) :
  file_read file = inr contents →
  decode_utf8 contents = inr text →
  read_csv text = inr df →
  ¬ required_columns ⊆ list_to_set (columns df) →
  ∃ detail,
    (upload_file file w).1 = inl (HTTPException 400 detail)
    ∧ (∀ c, c ∈ required_columns → c ∉ columns df → contains c detail)
    ∧ csv_file (upload_file file w).2 = csv_file w.
Proof.
  intros Hread Hdec Hparse Hreq.
  rewrite missing_empty in Hreq.
  unfold upload_file, df_to_csv. run.
  rewrite Hread, Hdec, Hparse.
  rewrite bool_decide_eq_true_2 by done.
  eexists. split; [reflexivity |]. split; [| done].
  intros c Hc Hnot. cbn [str exc_text].
  apply contains_app_l, str_set_names, elem_of_difference.
  split; [done |]. by rewrite elem_of_list_to_set.
Qed.

Lemma set_csv_file_same (w : World) : set_csv_file (csv_file w) w = w.
Proof. by destruct w. Qed.

(** Whatever is raised inside [upload_file] is logged and turned into a
  400 response whose detail is the text of the exception; the file is as it
  was unless it is the write that raised. *)
Lemma upload_file_raised (file : UploadFile) (w : World) (e : PyError) :
  upload_raises file w e →
  ∃ left_behind : option bytes,
    upload_file file w =
      (inl (HTTPException 400 (exc_text e)),
       add_log ("Upload error: " +:+ exc_text e +:+ nl +:+ format_exc (PyException e))
         (set_csv_file left_behind w))
    ∧ (left_behind = csv_file w
       ∨ ∃ contents text df,
           file_read file = inr contents ∧ decode_utf8 contents = inr text
           ∧ read_csv text = inr df
           ∧ required_columns ⊆ list_to_set (columns df)
           ∧ write_fault (csv_file w) (to_csv df) = Some e).
Proof.
  unfold upload_file, df_to_csv.
  intros [e' Hread|contents e' Hread Hdec|contents text e' Hread Hdec Hparse
          |contents text df Hread Hdec Hparse Hreq
          |contents text df e' Hread Hdec Hparse Hreq Hwrite]; run.
  - exists (csv_file w). rewrite set_csv_file_same, Hread. auto.
  - exists (csv_file w). rewrite set_csv_file_same, Hread, Hdec. auto.
  - exists (csv_file w). rewrite set_csv_file_same, Hread, Hdec, Hparse. auto.
  - exists (csv_file w). rewrite set_csv_file_same, Hread, Hdec, Hparse.
    rewrite missing_empty in Hreq. rewrite bool_decide_eq_true_2 by done. auto.
  - exists (write_residue (csv_file w) (to_csv df)).
    rewrite Hread, Hdec, Hparse. pose proof Hreq as Hreq'.
    apply missing_empty in Hreq.
    rewrite Hreq, bool_decide_eq_false_2 by (intros Hne; by apply Hne).
    rewrite Hwrite. split; [done |]. right. by exists contents, text, df.
Qed.

(** A run of [upload_file] that returns has read, decoded, parsed, found
  the required columns and stored the table. *)
Lemma upload_file_returned (file : UploadFile) (w : World) (r : UploadResult) :
  (upload_file file w).1 = inr r →
  ∃ contents text df,
    file_read file = inr contents ∧ decode_utf8 contents = inr text
    ∧ read_csv text = inr df
    ∧ required_columns ⊆ list_to_set (columns df)
    ∧ write_fault (csv_file w) (to_csv df) = None
    ∧ upload_file file w =
        (inr {| message := "Arquivo salvo com sucesso";
                result_columns := columns df |},
         set_csv_file (Some (to_csv df)) w).
Proof.
  unfold upload_file, df_to_csv. run.
  destruct (file_read file) as [e|contents] eqn:Hread; [done |].
  destruct (decode_utf8 contents) as [e|text] eqn:Hdec; [done |].
  destruct (read_csv text) as [e|df] eqn:Hparse; [done |].
  case_bool_decide as Hm; [done |].
  destruct (write_fault _ _) eqn:Hw; [done |].
  intros _. exists contents, text, df.
  apply missing_empty in Hm. by do 5 (split; [done |]).
Qed.

(** A run of [upload_file] raises inside its [try] or stores the table. *)
Lemma upload_file_cases (file : UploadFile) (w : World) :
  (∃ e, upload_raises file w e)
  ∨ (∃ contents text df,
       file_read file = inr contents ∧ decode_utf8 contents = inr text
       ∧ read_csv text = inr df
       ∧ required_columns ⊆ list_to_set (columns df)
       ∧ write_fault (csv_file w) (to_csv df) = None).
Proof.
  destruct (file_read file) as [e|contents] eqn:Hread.
  { left. exists e. by constructor. }
  destruct (decode_utf8 contents) as [e|text] eqn:Hdec.
  { left. exists e. by econstructor. }
  destruct (read_csv text) as [e|df] eqn:Hparse.
  { left. exists e. by econstructor. }
  destruct (decide (required_columns ⊆ list_to_set (columns df))) as [Hreq|Hreq].
  2:{ left. eexists. by eapply columns_missing. }
  destruct (write_fault (csv_file w) (to_csv df)) as [e|] eqn:Hwrite.
  { left. exists e. by eapply write_failed. }
  right. by exists contents, text, df.
Qed.

(** A run of [upload_file] after which the stored file differs has got as
  far as the write, which went through or raised. *)
Lemma upload_file_writes (file : UploadFile) (w : World) :
  csv_file (upload_file file w).2 ≠ csv_file w →
  ∃ contents text df,
    file_read file = inr contents ∧ decode_utf8 contents = inr text
    ∧ read_csv text = inr df
    ∧ required_columns ⊆ list_to_set (columns df)
    ∧ ((∃ r, (upload_file file w).1 = inr r)
       ∨ (∃ e, write_fault (csv_file w) (to_csv df) = Some e)).
Proof.
  destruct (upload_file_cases file w)
    as [[e He] | (contents & text & df & Hread & Hdec & Hparse & Hreq & Hwrite)].
  - destruct (upload_file_raised _ _ _ He) as (f & -> & [-> | Hw]).
    + by fields.
    + intros _. destruct Hw as (contents & text & df & ? & ? & ? & ? & ?).
      exists contents, text, df. eauto 10.
  - intros _. exists contents, text, df.
    rewrite (upload_file_stored _ _ _ _ _ Hread Hdec Hparse Hreq Hwrite). eauto 10.
Qed.

(** C10: whatever is uploaded and whatever state the service is in,
  [upload_file] either returns its success object (a 200 response) or
  raises [HTTPException] with status 400.  Every exception raised inside the
  handler ends in the 400: a body that is not UTF-8, a body pandas cannot
  parse and a write that fails in particular; and the handler returns only
  when the body was read, decoded and parsed, has the required columns, and
  the write went through. *)
Theorem upload_file_returns_or_400 (file : UploadFile) (w : World) :
  ((∃ r, (upload_file file w).1 = inr r ∧ http_status (upload_file file w).1 = 200%Z) ∨
   (∃ detail, (upload_file file w).1 = inl (HTTPException 400 detail) ∧
              http_status (upload_file file w).1 = 400%Z))
  ∧ (∀ e, upload_raises file w e →
          (upload_file file w).1 = inl (HTTPException 400 (exc_text e))
          ∧ http_status (upload_file file w).1 = 400%Z)
  ∧ (∀ contents e,
       file_read file = inr contents → decode_utf8 contents = inl e →
       (upload_file file w).1 = inl (HTTPException 400 (exc_text e)))
  ∧ (∀ contents text e,
       file_read file = inr contents → decode_utf8 contents = inr text →
       read_csv text = inl e →
       (upload_file file w).1 = inl (HTTPException 400 (exc_text e)))
  ∧ (∀ contents text df e,
       file_read file = inr contents → decode_utf8 contents = inr text →
       read_csv text = inr df →
       required_columns ⊆ list_to_set (columns df) →
       write_fault (csv_file w) (to_csv df) = Some e →
       (upload_file file w).1 = inl (HTTPException 400 (exc_text e)))
  ∧ (∀ r, (upload_file file w).1 = inr r →
       ∃ contents text df,
         file_read file = inr contents ∧ decode_utf8 contents = inr text
         ∧ read_csv text = inr df
         ∧ required_columns ⊆ list_to_set (columns df)
         ∧ write_fault (csv_file w) (to_csv df) = None
         ∧ r = {| message := "Arquivo salvo com sucesso";
                  result_columns := columns df |}).
Proof.
  assert (∀ e, upload_raises file w e →
               (upload_file file w).1 = inl (HTTPException 400 (exc_text e))
               ∧ http_status (upload_file file w).1 = 400%Z) as Hraised.
  { intros e He. by destruct (upload_file_raised _ _ _ He) as (f & -> & _). }
  split; [| split; [done |]; split; [| split; [| split]]].
  - destruct (upload_file_cases file w)
      as [[e He] | (contents & text & df & Hread & Hdec & Hparse & Hreq & Hwrite)].
    + right. exists (exc_text e). by apply Hraised.
    + left. rewrite (upload_file_stored _ _ _ _ _ Hread Hdec Hparse Hreq Hwrite).
      eauto.
  - intros contents e Hread Hdec. apply Hraised. by econstructor.
  - intros contents text e Hread Hdec Hparse. apply Hraised. by econstructor.
  - intros contents text df e Hread Hdec Hparse Hreq Hwrite.
    apply Hraised. by eapply write_failed.
  - intros r Hr.
    destruct (upload_file_returned _ _ _ Hr)
      as (contents & text & df & Hread & Hdec & Hparse & Hreq & Hwrite & E).
    exists contents, text, df. do 5 (split; [done |]).
    rewrite E in Hr. by injection Hr as <-.
Qed.

End upload.


(** ** The health handler *)

Section health.
Context `{Env}.

Lemma any_named_false (wanted : string) (models : list ModelInfo) :
  any_named wanted models = inr false ↔ Forall (named_otherwise wanted) models.
Proof.
  induction models as [|m models IH]; cbn [any_named]; [done |].
  rewrite Forall_cons. unfold named_otherwise at 1.
  destruct (name m) as [n|].
  - case_bool_decide as Hn.
    + split; [done | by intros [(? & [= <-] & ?) _]].
    + rewrite IH. split; [eauto | by intros [_ ?]].
  - split; [done | by intros [(? & ? & _) _]].
Qed.

Lemma any_named_true (wanted : string) (models : list ModelInfo) :
  any_named wanted models = inr true ↔ scan_finds wanted models.
Proof.
  unfold scan_finds.
  induction models as [|m models IH]; cbn [any_named].
  - split; [done | by intros ([|] & ? & ? & ? & _)].
  - destruct (name m) as [n|] eqn:Hm.
    + case_bool_decide as Hn.
      * split; [intros _ | done]. subst n. by exists [], m, models.
      * rewrite IH. split.
        -- intros (before & x & after & -> & Hb & Hx).
           exists (m :: before), x, after. split; [done |].
           split; [| done]. constructor; [| done]. by exists n.
        -- intros ([|y before] & x & after & [= -> ->] & Hb & Hx).
           ++ congruence.
           ++ apply Forall_cons in Hb as [_ Hb]. by exists before, x, after.
    + split; [done |].
      intros ([|y before] & x & after & [= -> ->] & Hb & Hx); [congruence |].
      apply Forall_cons in Hb as [(? & ? & _) _]. congruence.
Qed.

Lemma any_named_raises (wanted : string) (models : list ModelInfo) :
  (∃ e, any_named wanted models = inl e) ↔ scan_raises wanted models.
Proof.
  unfold scan_raises.
  induction models as [|m models IH]; cbn [any_named].
  - split; [by intros [? ?] | by intros ([|] & ? & ? & ? & _)].
  - destruct (name m) as [n|] eqn:Hm.
    + case_bool_decide as Hn.
      * split; [by intros [? ?] |].
        intros ([|y before] & x & after & [= -> ->] & Hb & Hx); [congruence |].
        apply Forall_cons in Hb as [(? & ? & ?) _]. congruence.
      * rewrite IH. split.
        -- intros (before & x & after & -> & Hb & Hx).
           exists (m :: before), x, after. split; [done |].
           split; [| done]. constructor; [| done]. by exists n.
        -- intros ([|y before] & x & after & [= -> ->] & Hb & Hx).
           ++ congruence.
           ++ apply Forall_cons in Hb as [_ Hb]. by exists before, x, after.
    + split; [intros _ | eauto]. by exists [], m, models.
Qed.

Lemma health_check_run (w : World) :
  health_check w =
    (inr match ollama_list with
         | inr models =>
             match any_named OLLAMA_MODEL models with
             | inr available =>
                 {| csv_loaded := bool_decide (is_Some (csv_file w));
                    ollama_running := true; model_available := available |}
             | inl _ =>
                 {| csv_loaded := bool_decide (is_Some (csv_file w));
                    ollama_running := false; model_available := false |}
             end
         | inl _ =>
             {| csv_loaded := bool_decide (is_Some (csv_file w));
                ollama_running := false; model_available := false |}
         end, w).
Proof.
  unfold health_check. run. destruct ollama_list as [e|models]; [done |].
  by destruct (any_named _ _).
Qed.

(** C7, as the code has it: [health_check] always returns, with a 200
  response.  In the status it returns, [csv_loaded] tells whether the file
  exists; [ollama_running] tells whether the listing call came back and the
  scan of its entries for the name [phi3] went through without an entry
  lacking its name on the way; [model_available] tells whether that scan
  found the name.  When the listing call raises, or an entry has no name,
  both are false and nothing is raised. *)
Theorem health_check_status (w : World) :
  ∃ status,
    (health_check w).1 = inr status
    ∧ http_status (health_check w).1 = 200%Z
    ∧ (csv_loaded status = true ↔ is_Some (csv_file w))
    ∧ (ollama_running status = true ↔
         ∃ models, ollama_list = inr models ∧ ¬ scan_raises "phi3" models)
    ∧ (model_available status = true ↔
         ∃ models, ollama_list = inr models ∧ scan_finds "phi3" models)
    ∧ (∀ e, ollama_list = inl e →
         ollama_running status = false ∧ model_available status = false)
    ∧ (∀ models, ollama_list = inr models → scan_raises "phi3" models →
         ollama_running status = false ∧ model_available status = false).
Proof.
  rewrite health_check_run. eexists. split; [reflexivity |]. split; [done |].
  change OLLAMA_MODEL with "phi3".
  destruct ollama_list as [e|models].
  - cbn [csv_loaded ollama_running model_available].
    rewrite bool_decide_eq_true. repeat split; try done.
    + by intros (? & ? & _).
    + by intros (? & ? & _).
  - pose proof (any_named_raises "phi3" models) as Hraises.
    pose proof (any_named_true "phi3" models) as Hfinds.
    destruct (any_named "phi3" models) as [e|available];
      cbn [csv_loaded ollama_running model_available];
      rewrite bool_decide_eq_true; (split; [done |]).
    + assert (scan_raises "phi3" models) as Hr by (apply Hraises; eauto).
      repeat split; try done.
      * by intros (? & [= <-] & ?).
      * intros (? & [= <-] & Hf). apply Hfinds in Hf. congruence.
    + assert (¬ scan_raises "phi3" models) as Hr.
      { intros [? ?]%Hraises. congruence. }
      split; [split; [eauto | done] |]. split; [| split; [done |]].
      * split.
        -- intros ->. exists models. split; [done |]. by apply Hfinds.
        -- intros (? & [= <-] & Hf). apply Hfinds in Hf. by injection Hf.
      * by intros ? [= <-] ?.
Qed.

End health.

(** ** The query handler *)

Section ask.
Context `{Env}.

Lemma install_missing_dependencies_run (w : World) :
  install_missing_dependencies w =
    if tabulate_importable w then (inr (), w)
    else match pip_install with
         | None => (inr (), set_tabulate_importable importable_after_pip
                              (add_log installing w))
         | Some e => (inl (PyException e), add_log installing w)
         end.
Proof.
  unfold install_missing_dependencies, import_tabulate, subprocess_run_pip_install.
  run. destruct (tabulate_importable w); [done |].
  cbn [is_ImportError exc_class].
  rewrite bool_decide_eq_true_2 by (by right).
  by destruct pip_install.
Qed.

Ltac run_ask :=
  unfold ask, pd_read_csv_path, to_markdown, get_ollama_response, generate; run.

Lemma ask_run (q : string) (w : World) :
  ask q w =
    match install_missing_dependencies w with
    | (inl e, w1) => (inl e, w1)
    | (inr _, w1) =>
        match csv_file w1 with
        | None => (inl (HTTPException 404 not_found), w1)
        | Some b =>
            match read_csv_file b with
            | inl e => (inl (HTTPException 500 not_processed),
                        add_log (analysis_error (PyException e)) w1)
            | inr df =>
                match preview true df with
                | inl e => (inl (HTTPException 500 not_processed),
                            add_log (analysis_error (PyException e)) w1)
                | inr p =>
                    match ollama_generate (generate_calls w1) (sent p q) with
                    | inl e => (inl (HTTPException 500 backend_failed),
                                add_log (ollama_error (PyException e))
                                  (add_generate_call (sent p q) w1))
                    | inr g => (inr {| question := q; answer := response g |},
                                add_generate_call (sent p q) w1)
                    end
                end
            end
        end
    end.
Proof.
  run_ask.
  destruct (install_missing_dependencies w) as [[e|[]] w1]; run; [done |].
  destruct (csv_file w1) as [b|] eqn:Hb; run.
  2:{ by rewrite bool_decide_eq_false_2 by (by intros [? ?]). }
  rewrite bool_decide_eq_true_2 by eauto. cbn [negb]. rewrite Hb.
  destruct (read_csv_file b) as [e|df]; run; [done |].
  unfold preview.
  destruct (tabulate_render (head df)) as [e|p]; run.
  - destruct (to_string (head df)) as [e'|p]; run; [done |].
    by destruct (ollama_generate _ _).
  - by destruct (ollama_generate _ _).
Qed.

Lemma installed_frame (w w1 : World) :
  installed w w1 →
  csv_file w1 = csv_file w ∧ generate_calls w1 = generate_calls w.
Proof. by intros [Ht | Ht Hpip]. Qed.

(** Every run of [ask] is one of the six cases of [ask_outcome]. *)
Lemma ask_spec (q : string) (w : World) : ask_outcome q w (ask q w).
Proof.
  rewrite ask_run, install_missing_dependencies_run.
  destruct (tabulate_importable w) eqn:Ht.
  - assert (installed w w) as Hi by (by constructor).
    destruct (csv_file w) as [b|] eqn:Hb; [| by constructor].
    destruct (read_csv_file b) as [e|df] eqn:Hr; [by econstructor |].
    destruct (preview true df) as [e|p] eqn:Hp; [by econstructor |].
    destruct (ollama_generate _ _) eqn:Hg; by econstructor.
  - destruct pip_install as [e|] eqn:Hpip; [by constructor |].
    assert (installed w (set_tabulate_importable importable_after_pip
                           (add_log installing w)))
      as Hi by (by constructor).
    fields.
    destruct (csv_file w) as [b|] eqn:Hb; [| by constructor].
    destruct (read_csv_file b) as [e|df] eqn:Hr; [by econstructor |].
    destruct (preview true df) as [e|p] eqn:Hp; [by econstructor |].
    destruct (ollama_generate _ _) eqn:Hg; by econstructor.
Qed.

(** C3, as the code has it: with no file at [CSV_PATH], [ask] never
  calls the backend, and it answers 404 whenever the dependency check that
  runs first gets through, that is when tabulate can be imported or pip
  installs it. *)
Theorem ask_without_table (q : string) (w : World) :
  csv_file w = None →
  generate_calls (ask q w).2 = generate_calls w
  ∧ (tabulate_importable w = true ∨ pip_install = None →
     (ask q w).1 = inl (HTTPException 404 not_found)
     ∧ http_status (ask q w).1 = 404%Z).
Proof.
  intros Hnone.
  destruct (ask_spec q w) as [e Ht Hpip | w1 Hi _ | | | |]; try congruence.
  - split; [done |]. intros [|]; congruence.
  - apply installed_frame in Hi as (_ & Hg). by split.
Qed.

(** C8: when [ask] returns, the table was read from the stored file, one
  request went to the backend, and its prompt is the template filled with
  the question and with the rendering of the header and the first five rows
  of the table (its columns keeping their dtypes): tabulate's when it renders
  them, [to_string]'s otherwise.
  The prompt so contains the preview, the question and the instruction to
  answer with exact values; the object returned holds the question as asked
  and the backend's text as generated. *)
Theorem ask_prompt_and_answer (q : string) (w : World) (r : AskResult) :
  (ask q w).1 = inr r →
  ∃ (b : bytes) (df : DataFrame) (data_preview : string) (g : GenerateResponse),
    csv_file w = Some b ∧ read_csv_file b = inr df
    ∧ (let first_rows := {| columns := columns df; dtypes := dtypes df;
                           rows := take 5 (rows df) |} in
       tabulate_render first_rows = inr data_preview
       ∨ (∃ e, tabulate_render first_rows = inl e)
         ∧ to_string first_rows = inr data_preview)
    ∧ generate_calls (ask q w).2 =
        (generate_calls w ++
           [ {| req_model := "phi3"; req_prompt := context data_preview q;
                req_options := {| temperature := 0 |} |} ])%list
    ∧ contains data_preview (context data_preview q)
    ∧ contains q (context data_preview q)
    ∧ contains "Responda com valores exatos quando possível."
        (context data_preview q)
    ∧ ollama_generate (generate_calls w)
        {| req_model := "phi3"; req_prompt := context data_preview q;
           req_options := {| temperature := 0 |} |} = inr g
    ∧ r = {| question := q; answer := response g |}.
Proof.
  destruct (ask_spec q w) as [| | | | |w1 b df p g Hi Hb Hr Hp Hg]; try done.
  intros [= <-]. exists b, df, p, g.
  apply installed_frame in Hi as (_ & Hcalls).
  split; [done |]. split; [done |]. split.
  { unfold preview in Hp. change (head df) with
      {| columns := columns df; dtypes := dtypes df; rows := take 5 (rows df) |}
      in Hp.
    cbv zeta. destruct (tabulate_render _) as [e|text]; [right | left].
    - split; [by exists e | done].
    - congruence. }
  split; [fields; by rewrite Hcalls |].
  assert (contains "Responda com valores exatos quando possível."
            "        Responda com valores exatos quando possível.")
    by (by exists "        ", EmptyString).
  split; [| split; [| split; [| done]]]; unfold context; auto 15 with contains.
Qed.

(** [ask] leaves the file at [CSV_PATH] as it is. *)
Lemma ask_frame (q : string) (w : World) : csv_file (ask q w).2 = csv_file w.
Proof.
  destruct (ask_spec q w) as [e Ht Hpip|w1 Hi|w1 ? ? Hi|w1 ? ? ? Hi|w1 ? ? ? ? Hi
                              |w1 ? ? ? ? Hi];
    try (apply installed_frame in Hi as (Hf & _)); by fields.
Qed.




End ask.
(** ** The three handlers together *)

Section service.
Context `{Env}.

(** C4, as the code has it: whatever is raised inside [upload_file], a
  missing column or a body that cannot be decoded, parsed or stored, reaches
  the client as the detail of the 400 response, text for text, and an upload
  fails in no other way.  A failing [ask] only ever shows one of its fixed
  messages, and [health_check] does not fail. *)
Theorem error_text_reaching_client (file : UploadFile) (q : string) (w : World) :
  (∀ e, upload_raises file w e →
        (upload_file file w).1 = inl (HTTPException 400 (exc_text e)))
  ∧ (∀ e, (upload_file file w).1 = inl e →
          ∃ raised, upload_raises file w raised
                    ∧ e = HTTPException 400 (exc_text raised))
  ∧ (∀ e, (ask q w).1 = inl e → client_message e ∈ generic_messages)
  ∧ (∃ status, (health_check w).1 = inr status).
Proof.
  split; [| split; [| split]].
  - intros e He. by destruct (upload_file_raised _ _ _ He) as (f & -> & _).
  - intros e.
    destruct (upload_file_cases file w)
      as [[raised He] | (contents & text & df & Hread & Hdec & Hparse & Hreq & Hwrite)].
    + destruct (upload_file_raised _ _ _ He) as (f & -> & _).
      intros [= <-]. eauto.
    + by rewrite (upload_file_stored file w _ _ _ Hread Hdec Hparse Hreq Hwrite).
  - intros e. unfold generic_messages.
    destruct (ask_spec q w); intros [= <-]; cbn [client_message fst];
      rewrite !elem_of_cons; auto 6.
  - rewrite health_check_run. eauto.
Qed.

(** C5: after two uploads that both succeed, the file holds the
  serialisation of the table parsed from the second one, the same file the
  second upload leaves from any other state; a query made then loads the
  table from these bytes and builds its prompt from that table alone. *)
Theorem second_upload_replaces_first (first second : UploadFile) (w : World)
    (r1 r2 : UploadResult) :
  (upload_file first w).1 = inr r1 →
  (upload_file second (upload_file first w).2).1 = inr r2 →
  ∃ contents text df,
    file_read second = inr contents ∧ decode_utf8 contents = inr text
    ∧ read_csv text = inr df
    ∧ csv_file (upload_file second (upload_file first w).2).2 = Some (to_csv df)
    ∧ (∀ w' r', (upload_file second w').1 = inr r' →
                csv_file (upload_file second w').2 = Some (to_csv df))
    ∧ (pd_read_csv_path (upload_file second (upload_file first w).2).2).1 =
        match read_csv_file (to_csv df) with
        | inr table => inr table
        | inl e => inl (PyException e)
        end
    ∧ (∀ q r, (ask q (upload_file second (upload_file first w).2).2).1 = inr r →
         ∃ table data_preview,
           read_csv_file (to_csv df) = inr table
           ∧ preview true table = inr data_preview
           ∧ generate_calls (ask q (upload_file second (upload_file first w).2).2).2
             = (generate_calls w ++ [sent data_preview q])%list).
Proof.
  intros H1 H2.
  apply upload_file_returned in H1 as (c1 & t1 & d1 & _ & _ & _ & _ & _ & E1).
  rewrite E1 in *. cbn [snd] in *.
  apply upload_file_returned in H2
    as (contents & text & df & Hread & Hdec & Hparse & Hreq & Hwrite & E2).
  rewrite E2. cbn [snd].
  exists contents, text, df. do 3 (split; [done |]).
  split; [done |]. split; [| split].
  - intros w' r' H'.
    apply upload_file_returned in H'
      as (c' & t' & d' & Hread' & Hdec' & Hparse' & _ & _ & E').
    rewrite E'. cbn [snd csv_file set_csv_file]. congruence.
  - unfold pd_read_csv_path. fields. by destruct (read_csv_file _).
  - intros q r.
    destruct (ask_spec q (set_csv_file (Some (to_csv df))
                (set_csv_file (Some (to_csv d1)) w)))
      as [| | | | |w1 b table p g Hi Hb Hr Hp Hg]; try done.
    intros _. fields_all. injection Hb as <-.
    apply installed_frame in Hi as (_ & Hcalls). fields_all.
    exists table, p. by rewrite Hcalls.
Qed.

(** C9, as the code has it: [ask] and [health_check] leave the file at
  [CSV_PATH] as it is, there or not and byte for byte; a run of [upload_file]
  after which the file differs is a run that got as far as the write of the
  table: the upload was read, decoded and parsed and has the required
  columns, and the write went through, so that the handler returned its
  success object, or the write raised. *)
Theorem table_written_by_upload_only (q : string) (file : UploadFile) (w : World) :
  csv_file (ask q w).2 = csv_file w
  ∧ csv_file (health_check w).2 = csv_file w
  ∧ (csv_file (upload_file file w).2 ≠ csv_file w →
     ∃ contents text df,
       file_read file = inr contents ∧ decode_utf8 contents = inr text
       ∧ read_csv text = inr df
       ∧ required_columns ⊆ list_to_set (columns df)
       ∧ ((∃ r, (upload_file file w).1 = inr r)
          ∨ (∃ e, write_fault (csv_file w) (to_csv df) = Some e))).
Proof.
  split; [apply ask_frame |]. split; [by rewrite health_check_run |].
  apply upload_file_writes.
Qed.

End service.

(** ** The upload handler on concrete uploads *)

Lemma upload_file_succeeds_witness :
  (@upload_file Reference.std Reference.sales Reference.fresh).1 =
    inr {| message := "Arquivo salvo com sucesso";
           result_columns := ["date"; "product"; "quantity"; "total"] |}.
Proof.
  refine (proj1 (@upload_file_succeeds Reference.std Reference.sales Reference.fresh
                   _ _ Reference.sales_table _ _ _ _ _)).
  - reflexivity.
  - reflexivity.
  - reflexivity.
  - apply missing_empty. vm_compute. reflexivity.
  - reflexivity.
Defined.

(** C1 as stated fails: the upload of the specification's scenario decodes,
  parses and has the four required columns, yet on a disk that refuses the
  write the handler answers 400 instead of succeeding. *)
Lemma upload_file_valid_csv_refused :
  file_read Reference.sales = inr (list_byte_of_string
    ("date,product,quantity,total" +:+ nl +:+ "2024-01-01,Widget,5,50.0"))
  ∧ Reference.decode_ascii (list_byte_of_string
      ("date,product,quantity,total" +:+ nl +:+ "2024-01-01,Widget,5,50.0"))
    = inr ("date,product,quantity,total" +:+ nl +:+ "2024-01-01,Widget,5,50.0")
  ∧ Reference.parse_csv
      ("date,product,quantity,total" +:+ nl +:+ "2024-01-01,Widget,5,50.0")
    = inr Reference.sales_table
  ∧ required_columns ⊆ list_to_set (columns Reference.sales_table)
  ∧ (@upload_file Reference.locked Reference.sales Reference.fresh).1
    = inl (HTTPException 400 "[Errno 13] Permission denied: 'sales.csv'")
  ∧ http_status (@upload_file Reference.locked Reference.sales Reference.fresh).1
    = 400%Z.
Proof.
  repeat split; reflexivity.
Qed.

Lemma upload_file_missing_columns_witness :
  ∃ detail,
    (@upload_file Reference.std Reference.no_total Reference.fresh).1
      = inl (HTTPException 400 detail)
    ∧ (∀ c, c ∈ required_columns → c ∉ ["date"; "product"; "quantity"] →
            contains c detail)
    ∧ csv_file (@upload_file Reference.std Reference.no_total Reference.fresh).2 = None.
Proof.
  refine (@upload_file_missing_columns Reference.std Reference.no_total Reference.fresh
            _ _ {| columns := ["date"; "product"; "quantity"];
                   dtypes := ["object"; "object"; "object"];
                   rows := [["2024-01-01"; "Widget"; "5"]] |} _ _ _ _).
  - reflexivity.
  - reflexivity.
  - reflexivity.
  - rewrite missing_empty. vm_compute. discriminate.
Defined.


(** ** The query handler on concrete questions *)

Lemma ask_without_table_witness :
  generate_calls (@ask Reference.std "What is the total?" Reference.fresh).2 = []
  ∧ (@ask Reference.std "What is the total?" Reference.fresh).1
    = inl (HTTPException 404 not_found)
  ∧ http_status (@ask Reference.std "What is the total?" Reference.fresh).1 = 404%Z.
Proof.
  destruct (@ask_without_table Reference.std "What is the total?" Reference.fresh)
    as [Hcalls H404].
  - reflexivity.
  - split; [exact Hcalls |]. apply H404. left. reflexivity.
Defined.

(** C3 as stated fails: no table is stored, tabulate is not installed and
  pip cannot install it; the exception of the dependency check leaves [ask]
  before the 404 is raised, and the client gets a 500 response. *)
Lemma ask_without_table_pip_failing :
  csv_file Reference.bare = None
  ∧ (@ask Reference.offline "What is the total?" Reference.bare).1
    = inl (PyException (mkPyError "CalledProcessError"
        "Command '['pip', 'install', 'tabulate']' returned non-zero exit status 1."))
  ∧ http_status (@ask Reference.offline "What is the total?" Reference.bare).1
    = 500%Z.
Proof. repeat split; reflexivity. Qed.

(** The world after the upload of the specification's scenario. *)
Lemma ask_prompt_and_answer_witness :
  ∃ (b : bytes) (df : DataFrame) (data_preview : string) (g : GenerateResponse),
    csv_file (@upload_file Reference.std Reference.sales Reference.fresh).2 = Some b
    ∧ @read_csv_file Reference.std b = inr df
    ∧ (let first_rows := {| columns := columns df; dtypes := dtypes df;
                           rows := take 5 (rows df) |} in
       @tabulate_render Reference.std first_rows = inr data_preview
       ∨ (∃ e, @tabulate_render Reference.std first_rows = inl e)
         ∧ @to_string Reference.std first_rows = inr data_preview)
    ∧ generate_calls
        (@ask Reference.std "What is the total?"
           (@upload_file Reference.std Reference.sales Reference.fresh).2).2 =
        (generate_calls (@upload_file Reference.std Reference.sales Reference.fresh).2 ++
           [ {| req_model := "phi3";
                req_prompt := context data_preview "What is the total?";
                req_options := {| temperature := 0 |} |} ])%list
    ∧ contains data_preview (context data_preview "What is the total?")
    ∧ contains "What is the total?"
        (context data_preview "What is the total?")
    ∧ contains "Responda com valores exatos quando possível."
        (context data_preview "What is the total?")
    ∧ @ollama_generate Reference.std
        (generate_calls (@upload_file Reference.std Reference.sales Reference.fresh).2)
        {| req_model := "phi3";
           req_prompt := context data_preview "What is the total?";
           req_options := {| temperature := 0 |} |} = inr g
    ∧ {| question := "What is the total?"; answer := "Total: 50.0" |}
      = {| question := "What is the total?"; answer := response g |}.
Proof.
  apply (@ask_prompt_and_answer Reference.std "What is the total?"
           (@upload_file Reference.std Reference.sales Reference.fresh).2).
  vm_compute. reflexivity.
Defined.

Lemma steady_backend_deterministic : @deterministic_backend Reference.std.
Proof. intros before before' r _. reflexivity. Qed.


(** ** The three handlers on concrete requests *)

(** C4 as stated fails: an upload that is not UTF-8 is not a validation
  error, and the text of the decoder's exception is the detail the client
  receives. *)
Lemma upload_not_utf8_text_reaches_client :
  @decode_utf8 Reference.std [xff] =
    inl (mkPyError "UnicodeDecodeError"
           "'utf-8' codec can't decode byte 0xff in position 0: invalid start byte")
  ∧ match (@upload_file Reference.std Reference.binary Reference.fresh).1 with
    | inl e =>
        http_status (inl e : exn + UploadResult) = 400%Z
        ∧ client_message e =
            "'utf-8' codec can't decode byte 0xff in position 0: invalid start byte"
        ∧ contains
            "'utf-8' codec can't decode byte 0xff in position 0: invalid start byte"
            (client_message e)
    | inr _ => False
    end.
Proof.
  split; [reflexivity |]. split; [reflexivity |]. split; [reflexivity |].
  apply contains_refl.
Qed.

Lemma error_text_reaching_client_witness :
  (@upload_file Reference.std Reference.binary Reference.fresh).1 =
    inl (HTTPException 400
           "'utf-8' codec can't decode byte 0xff in position 0: invalid start byte").
Proof.
  refine (proj1 (@error_text_reaching_client Reference.std Reference.binary EmptyString
                   Reference.fresh)
            (mkPyError "UnicodeDecodeError"
               "'utf-8' codec can't decode byte 0xff in position 0: invalid start byte")
            _).
  apply (@not_utf8 Reference.std Reference.binary Reference.fresh [xff]);
    reflexivity.
Defined.

Lemma second_upload_replaces_first_witness :
  csv_file (@upload_file Reference.std Reference.sales
              (@upload_file Reference.std Reference.sales Reference.fresh).2).2
  = Some (@to_csv Reference.std Reference.sales_table).
Proof.
  destruct (@second_upload_replaces_first Reference.std Reference.sales Reference.sales
              Reference.fresh
              {| message := "Arquivo salvo com sucesso";
                 result_columns := ["date"; "product"; "quantity"; "total"] |}
              {| message := "Arquivo salvo com sucesso";
                 result_columns := ["date"; "product"; "quantity"; "total"] |})
    as (contents & text & df & Hread & Hdec & Hparse & Hfile & _).
  - vm_compute. reflexivity.
  - vm_compute. reflexivity.
  - rewrite Hfile. f_equal. f_equal.
    injection Hread as <-. vm_compute in Hdec. injection Hdec as <-.
    vm_compute in Hparse. by injection Hparse as <-.
Defined.

Lemma table_written_by_upload_only_witness :
  ∃ contents text df,
    file_read Reference.sales = inr contents
    ∧ @decode_utf8 Reference.std contents = inr text
    ∧ @read_csv Reference.std text = inr df
    ∧ required_columns ⊆ list_to_set (columns df)
    ∧ ((∃ r, (@upload_file Reference.std Reference.sales Reference.fresh).1 = inr r)
       ∨ (∃ e, @write_fault Reference.std (csv_file Reference.fresh)
                 (@to_csv Reference.std df) = Some e)).
Proof.
  refine (proj2 (proj2 (@table_written_by_upload_only Reference.std EmptyString
                          Reference.sales Reference.fresh)) _).
  vm_compute. discriminate.
Defined.

(** C9 as stated fails: the disk fills up while a well-formed upload is
  written over the stored table; the upload is refused with a 400 response,
  and the file, opened for writing and so emptied before the write raised,
  is no longer what it was. *)
Lemma upload_file_refused_truncates :
  (@upload_file Scenarios.disk_full Reference.sales Scenarios.loaded).1 =
    inl (HTTPException 400 "[Errno 28] No space left on device")
  ∧ csv_file Scenarios.loaded = Some (Reference.unparse_csv Reference.sales_table)
  ∧ csv_file (@upload_file Scenarios.disk_full Reference.sales Scenarios.loaded).2 =
      Some []
  ∧ csv_file (@upload_file Scenarios.disk_full Reference.sales Scenarios.loaded).2 ≠
      csv_file Scenarios.loaded.
Proof. repeat split; try reflexivity. vm_compute. discriminate. Qed.

(** C7 as stated fails: the listing call returns, with an entry that has
  no ['name']; the [KeyError] of the scan is swallowed with the rest, and
  [ollama_running] is false although the backend answered. *)
Lemma health_check_nameless_listing :
  @ollama_list Scenarios.nameless_listing = inr [ {| name := None |} ]
  ∧ (@health_check Scenarios.nameless_listing Reference.fresh).1 =
      inr {| csv_loaded := false; ollama_running := false;
             model_available := false |}.
Proof. split; reflexivity. Qed.

Lemma upload_file_returns_or_400_witness :
  (@upload_file Reference.std Reference.binary Reference.fresh).1 =
    inl (HTTPException 400
           "'utf-8' codec can't decode byte 0xff in position 0: invalid start byte")
  ∧ (@upload_file Scenarios.disk_full Reference.sales Scenarios.loaded).1 =
      inl (HTTPException 400 "[Errno 28] No space left on device").
Proof.
  split.
  - refine (proj1 (proj2 (proj2 (@upload_file_returns_or_400 Reference.std
                                   Reference.binary Reference.fresh)))
              [xff]
              (mkPyError "UnicodeDecodeError"
                 "'utf-8' codec can't decode byte 0xff in position 0: invalid start byte")
              _ _); reflexivity.
  - refine (proj1 (proj2 (proj2 (proj2 (proj2
              (@upload_file_returns_or_400 Scenarios.disk_full
                 Reference.sales Scenarios.loaded)))))
              _ _ Reference.sales_table
              (mkPyError "OSError" "[Errno 28] No space left on device")
              _ _ _ _ _); reflexivity.
Defined.

(** The health handler before and after the first upload. *)
Example health_check_fresh :
  (@health_check Reference.std Reference.fresh).1 =
    inr {| csv_loaded := false; ollama_running := true; model_available := true |}.
Proof. reflexivity. Qed.

Example health_check_after_upload :
  (@health_check Reference.std
     (@upload_file Reference.std Reference.sales Reference.fresh).2).1 =
    inr {| csv_loaded := true; ollama_running := true; model_available := true |}.
Proof. reflexivity. Qed.

(** * Further properties of the handlers *)

(** ** The dependency check *)

Section dependency_check.
Context `{Env}.



End dependency_check.


(** ** The call to the backend *)

Section backend_call.
Context `{Env}.

Lemma get_ollama_response_run (prompt : string) (w : World) :
  get_ollama_response prompt w =
    let r := {| req_model := OLLAMA_MODEL; req_prompt := prompt;
                req_options := {| temperature := 0 |} |} in
    match ollama_generate (generate_calls w) r with
    | inr g => (inr (response g), add_generate_call r w)
    | inl e => (inl (HTTPException 500 backend_failed),
                add_log (ollama_error (PyException e)) (add_generate_call r w))
    end.
Proof.
  unfold get_ollama_response, generate. run.
  by destruct (ollama_generate _ _).
Qed.

(** X3: [get_ollama_response] makes exactly one call to the backend, for
  the model [phi3], with the prompt it was given and temperature 0, and does
  not try again.  When the backend answers, its text is returned and nothing
  is logged; when the call raises, the caller gets [HTTPException] 500 with
  the fixed message, and one record holding the text of the exception is
  logged.  The stored file is not touched. *)
Theorem get_ollama_response_once (prompt : string) (w : World) :
  let r := {| req_model := "phi3"; req_prompt := prompt;
              req_options := {| temperature := 0 |} |} in
  generate_calls (get_ollama_response prompt w).2 = (generate_calls w ++ [r])%list
  ∧ csv_file (get_ollama_response prompt w).2 = csv_file w
  ∧ match ollama_generate (generate_calls w) r with
    | inr g =>
        (get_ollama_response prompt w).1 = inr (response g)
        ∧ logged (get_ollama_response prompt w).2 = logged w
    | inl e =>
        (get_ollama_response prompt w).1 =
          inl (HTTPException 500 "Erro no servidor de modelos")
        ∧ ∃ record,
            logged (get_ollama_response prompt w).2 = (logged w ++ [record])%list
            ∧ contains "Erro Ollama: " record
            ∧ contains (exc_text e) record
    end.
Proof.
  cbv zeta. rewrite get_ollama_response_run. cbv zeta.
  change OLLAMA_MODEL with "phi3".
  destruct (ollama_generate _ _) as [e|g]; fields; [| done].
  do 3 (split; [done |]). eexists. split; [done |].
  unfold ollama_error. cbn [str]. auto with contains.
Qed.

End backend_call.

(** ** More on the upload handler *)

Section upload_effects.
Context `{Env}.

(** X4: an upload that is refused leaves exactly one more record in the
  log, which starts with [Upload error: ] followed by the very detail the
  client is sent; an upload that succeeds logs nothing. *)
Theorem upload_file_logs (file : UploadFile) (w : World) :
  match (upload_file file w).1 with
  | inr _ => logged (upload_file file w).2 = logged w
  | inl e =>
      ∃ rest,
        logged (upload_file file w).2 =
          (logged w ++ ["Upload error: " +:+ client_message e +:+ rest])%list
  end.
Proof.
  destruct (upload_file_cases file w)
    as [[e He] | (contents & text & df & Hread & Hdec & Hparse & Hreq & Hwrite)].
  - destruct (upload_file_raised _ _ _ He) as (f & -> & _).
    fields. cbn [client_message]. eauto.
  - by rewrite (upload_file_stored _ _ _ _ _ Hread Hdec Hparse Hreq Hwrite).
Qed.

(** X5: no upload, accepted or refused, calls the backend or changes
  whether tabulate can be imported. *)
Theorem upload_file_frame (file : UploadFile) (w : World) :
  generate_calls (upload_file file w).2 = generate_calls w
  ∧ tabulate_importable (upload_file file w).2 = tabulate_importable w.
Proof.
  destruct (upload_file_cases file w)
    as [[e He] | (contents & text & df & Hread & Hdec & Hparse & Hreq & Hwrite)].
  - by destruct (upload_file_raised _ _ _ He) as (f & -> & _).
  - by rewrite (upload_file_stored _ _ _ _ _ Hread Hdec Hparse Hreq Hwrite).
Qed.

(** X6: when required columns are missing, the detail of the 400 response
  is [Colunas faltando: ] followed by the Python rendering of a set that
  holds the missing required columns and nothing else, each once: a required
  column the header has is not listed. *)
Theorem upload_file_detail_lists_missing (file : UploadFile) (w : World)
    (contents : bytes) (text : string) (df : DataFrame) :
  file_read file = inr contents →
  decode_utf8 contents = inr text →
  read_csv text = inr df →
  ¬ required_columns ⊆ list_to_set (columns df) →
  ∃ listed : list string,
    NoDup listed
    ∧ (∀ c, c ∈ listed ↔ c ∈ required_columns ∧ c ∉ columns df)
    ∧ (upload_file file w).1 =
        inl (HTTPException 400
               ("Colunas faltando: " +:+ "{" +:+
                String.concat ", " ((λ c, "'" +:+ c +:+ "'") <$> listed) +:+ "}")).
Proof.
  intros Hread Hdec Hparse Hreq.
  destruct (upload_file_raised _ _ _
              (columns_missing file w _ _ _ Hread Hdec Hparse Hreq))
    as (f & -> & _).
  exists (hash_order (elements (required_columns ∖ list_to_set (columns df)))).
  split; [| split; [| done]].
  - rewrite hash_order_perm. apply NoDup_elements.
  - intros c. rewrite hash_order_perm, elem_of_elements, elem_of_difference.
    by rewrite elem_of_list_to_set.
Qed.

End upload_effects.

Lemma upload_file_detail_lists_missing_witness :
  ∃ listed : list string,
    NoDup listed
    ∧ (∀ c, c ∈ listed ↔
            c ∈ required_columns ∧ c ∉ ["date"; "product"; "quantity"])
    ∧ (@upload_file Reference.std Reference.no_total Reference.fresh).1 =
        inl (HTTPException 400
               ("Colunas faltando: " +:+ "{" +:+
                String.concat ", " ((λ c, "'" +:+ c +:+ "'") <$> listed) +:+ "}")).
Proof.
  refine (@upload_file_detail_lists_missing Reference.std Reference.no_total
            Reference.fresh _ _
            {| columns := ["date"; "product"; "quantity"];
               dtypes := ["object"; "object"; "object"];
               rows := [["2024-01-01"; "Widget"; "5"]] |} _ _ _ _).
  - reflexivity.
  - reflexivity.
  - reflexivity.
  - rewrite missing_empty. vm_compute. discriminate.
Defined.

(** ** More on the query handler *)

Section ask_effects.
Context `{Env}.

(** What was logged before does not change what [ask] answers. *)
Lemma ask_log_irrelevant (q record : string) (w : World) :
  (ask q (add_log record w)).1 = (ask q w).1.
Proof.
  destruct (ask_spec q w) as [e Ht Hpip|w1 Hi Hb|w1 b e Hi Hb Hr
                              |w1 b df e Hi Hb Hr Hp|w1 b df p e Hi Hb Hr Hp Hg
                              |w1 b df p g Hi Hb Hr Hp Hg];
    try (destruct Hi as [Ht|Ht Hpip]);
    destruct (ask_spec q (add_log record w))
      as [e' Ht' Hpip'|w2 Hi' Hb'|w2 b' e' Hi' Hb' Hr'
          |w2 b' df' e' Hi' Hb' Hr' Hp'
          |w2 b' df' p' e' Hi' Hb' Hr' Hp' Hg'
          |w2 b' df' p' g' Hi' Hb' Hr' Hp' Hg'];
    try (destruct Hi' as [Ht'|Ht' Hpip']); fields_all;
    congruence.
Qed.

(** X7: the status of the response to [ask] is 200, 404 or 500, and it is
  404 exactly when no file is stored and the dependency check gets through
  (tabulate can be imported, or pip installs it). *)
Theorem ask_status (q : string) (w : World) :
  (http_status (ask q w).1 = 200%Z ∨ http_status (ask q w).1 = 404%Z
   ∨ http_status (ask q w).1 = 500%Z)
  ∧ (http_status (ask q w).1 = 404%Z ↔
     csv_file w = None ∧ (tabulate_importable w = true ∨ pip_install = None)).
Proof.
  destruct (ask_spec q w) as [e Ht Hpip|w1 Hi Hb|w1 b e Hi Hb Hr
                              |w1 b df e Hi Hb Hr Hp|w1 b df p e Hi Hb Hr Hp Hg
                              |w1 b df p g Hi Hb Hr Hp Hg];
    cbn [fst http_status]; (split; [auto |]).
  - split; [done |]. intros [_ [|]]; congruence.
  - split; [| done]. intros _. split; [done |].
    destruct Hi as [Ht | Ht Hpip]; auto.
  - split; [done |]. intros [? _]; congruence.
  - split; [done |]. intros [? _]; congruence.
  - split; [done |]. intros [? _]; congruence.
  - split; [done |]. intros [? _]; congruence.
Qed.

(** X8: [ask] calls the backend at most once.  It calls it exactly once
  when it returns an answer, and not at all when it fails with
  [Erro ao processar a pergunta], that is when the table cannot be read or
  rendered. *)
Theorem ask_calls_backend_at_most_once (q : string) (w : World) :
  (length (generate_calls (ask q w).2) ≤ S (length (generate_calls w)))%nat
  ∧ (∀ r, (ask q w).1 = inr r →
          ∃ data_preview, generate_calls (ask q w).2 =
                            (generate_calls w ++ [sent data_preview q])%list)
  ∧ (∀ c, (ask q w).1 = inl (HTTPException c "Erro ao processar a pergunta") →
          generate_calls (ask q w).2 = generate_calls w).
Proof.
  destruct (ask_spec q w) as [e Ht Hpip|w1 Hi Hb|w1 b e Hi Hb Hr
                              |w1 b df e Hi Hb Hr Hp|w1 b df p e Hi Hb Hr Hp Hg
                              |w1 b df p g Hi Hb Hr Hp Hg];
    try (apply installed_frame in Hi as (_ & Hc)); fields;
    rewrite ?Hc, ?length_app; cbn [length];
    (split; [lia |]); (split; [intros r [=] | intros c [=]]); eauto.
Qed.

(** X9: when [ask] fails with status 500 through one of its own handlers,
  the exception behind it was raised by reading the table, by rendering the
  preview or by the backend, and it is logged: the last record of the log
  holds its text.  A failure of the backend is logged once, by
  [get_ollama_response], and not a second time by [ask]. *)
Theorem ask_failure_is_logged (q : string) (w : World) (detail : string) :
  (ask q w).1 = inl (HTTPException 500 detail) →
  ∃ (cause : PyError) (w1 : World) (record : string),
    installed w w1
    ∧ logged (ask q w).2 = (logged w1 ++ [record])%list
    ∧ contains (exc_text cause) record
    ∧ ((∃ b, csv_file w = Some b ∧ read_csv_file b = inl cause)
       ∨ (∃ b df, csv_file w = Some b ∧ read_csv_file b = inr df
                  ∧ preview true df = inl cause)
       ∨ (∃ b df p, csv_file w = Some b ∧ read_csv_file b = inr df
                    ∧ preview true df = inr p
                    ∧ ollama_generate (generate_calls w) (sent p q) = inl cause
                    ∧ contains "Erro Ollama: " record)).
Proof.
  destruct (ask_spec q w) as [e Ht Hpip|w1 Hi Hb|w1 b e Hi Hb Hr
                              |w1 b df e Hi Hb Hr Hp|w1 b df p e Hi Hb Hr Hp Hg
                              |w1 b df p g Hi Hb Hr Hp Hg];
    intros [=]; exists e, w1; eexists; (split; [done |]); fields;
    (split; [done |]); unfold analysis_error, ollama_error; cbn [str];
    (split; [auto with contains |]).
  - left. eauto.
  - right. left. eauto.
  - right. right. exists b, df, p. do 4 (split; [done |]). auto with contains.
Qed.

End ask_effects.

(** ** More on the handlers together *)

Section service_effects.
Context `{Env}.

(** X10: after an upload that succeeded, [health_check] reports
  [csv_loaded] and [ask] does not answer 404: its status is 200 or 500. *)
Theorem upload_file_then_query (file : UploadFile) (q : string) (w : World)
    (r : UploadResult) :
  (upload_file file w).1 = inr r →
  (∃ status, (health_check (upload_file file w).2).1 = inr status
             ∧ csv_loaded status = true)
  ∧ (http_status (ask q (upload_file file w).2).1 = 200%Z
     ∨ http_status (ask q (upload_file file w).2).1 = 500%Z).
Proof.
  intros Hr.
  apply upload_file_returned in Hr as (c & t & df & _ & _ & _ & _ & _ & E).
  rewrite E. cbn [snd]. split.
  - rewrite health_check_run.
    destruct ollama_list as [e|models]; [| destruct (any_named _ models)];
      eexists; (split; [done |]);
      cbn [csv_loaded csv_file set_csv_file]; by apply bool_decide_eq_true.
  - destruct (ask_spec q (set_csv_file (Some (to_csv df)) w))
      as [|w1 Hi Hb| | | |]; cbn [fst http_status]; auto.
    by fields_all.
Qed.

(** X11: an upload that is refused before the write (it cannot be read,
  decoded or parsed, or it lacks a required column) changes nothing a later
  request can see: the stored file is as it was, [ask] gives the result it
  would have given without it, and so does [health_check]. *)
Theorem upload_file_refused_is_invisible (file : UploadFile) (q : string)
    (w : World) :
  ¬ (∃ contents text df,
       file_read file = inr contents ∧ decode_utf8 contents = inr text
       ∧ read_csv text = inr df
       ∧ required_columns ⊆ list_to_set (columns df)) →
  (∃ detail, (upload_file file w).1 = inl (HTTPException 400 detail))
  ∧ csv_file (upload_file file w).2 = csv_file w
  ∧ (ask q (upload_file file w).2).1 = (ask q w).1
  ∧ (health_check (upload_file file w).2).1 = (health_check w).1.
Proof.
  intros Hearly.
  destruct (upload_file_cases file w)
    as [[raised He] | (contents & text & df & Hread & Hdec & Hparse & Hreq & Hwrite)].
  - destruct (upload_file_raised _ _ _ He) as (f & -> & [-> | Hw]).
    + rewrite set_csv_file_same. cbn [fst snd]. split; [eauto |].
      split; [done |]. split.
      * apply ask_log_irrelevant.
      * by rewrite !health_check_run.
    + destruct Hearly. destruct Hw as (contents & text & df & ? & ? & ? & ? & _).
      by exists contents, text, df.
  - destruct Hearly. by exists contents, text, df.
Qed.

(** X12: [health_check] has no effect at all, it logs nothing and calls
  nothing that changes the world; and in the status it returns, a model is
  only ever reported available together with a running backend. *)
Theorem health_check_pure (w : World) :
  (health_check w).2 = w
  ∧ ∀ status, (health_check w).1 = inr status →
      model_available status = true → ollama_running status = true.
Proof.
  rewrite health_check_run. split; [done |].
  intros status [= <-].
  destruct ollama_list as [e|models]; [done |]. by destruct (any_named _ models).
Qed.

End service_effects.

Lemma ask_failure_is_logged_witness :
  ∃ (cause : PyError) (w1 : World) (record : string),
    @installed Scenarios.backend_down Scenarios.loaded w1
    ∧ logged (@ask Scenarios.backend_down "What is the total?" Scenarios.loaded).2
      = (logged w1 ++ [record])%list
    ∧ contains (exc_text cause) record
    ∧ ((∃ b, csv_file Scenarios.loaded = Some b
             ∧ @read_csv_file Scenarios.backend_down b = inl cause)
       ∨ (∃ b df, csv_file Scenarios.loaded = Some b
                  ∧ @read_csv_file Scenarios.backend_down b = inr df
                  ∧ @preview Scenarios.backend_down true df = inl cause)
       ∨ (∃ b df p, csv_file Scenarios.loaded = Some b
                    ∧ @read_csv_file Scenarios.backend_down b = inr df
                    ∧ @preview Scenarios.backend_down true df = inr p
                    ∧ @ollama_generate Scenarios.backend_down
                        (generate_calls Scenarios.loaded)
                        (sent p "What is the total?") = inl cause
                    ∧ contains "Erro Ollama: " record)).
Proof.
  apply (@ask_failure_is_logged Scenarios.backend_down "What is the total?"
           Scenarios.loaded "Erro no servidor de modelos").
  vm_compute. reflexivity.
Defined.

Lemma upload_file_then_query_witness :
  (∃ status,
     (@health_check Reference.std
        (@upload_file Reference.std Reference.sales Reference.fresh).2).1 = inr status
     ∧ csv_loaded status = true)
  ∧ (http_status
       (@ask Reference.std "What is the total?"
          (@upload_file Reference.std Reference.sales Reference.fresh).2).1 = 200%Z
     ∨ http_status
         (@ask Reference.std "What is the total?"
            (@upload_file Reference.std Reference.sales Reference.fresh).2).1 = 500%Z).
Proof.
  apply (@upload_file_then_query Reference.std Reference.sales "What is the total?"
           Reference.fresh
           {| message := "Arquivo salvo com sucesso";
              result_columns := ["date"; "product"; "quantity"; "total"] |}).
  vm_compute. reflexivity.
Defined.

Lemma upload_file_refused_is_invisible_witness :
  (∃ detail,
     (@upload_file Reference.std Reference.no_total Scenarios.loaded).1 =
       inl (HTTPException 400 detail))
  ∧ csv_file (@upload_file Reference.std Reference.no_total Scenarios.loaded).2 =
      csv_file Scenarios.loaded
  ∧ (@ask Reference.std "What is the total?"
       (@upload_file Reference.std Reference.no_total Scenarios.loaded).2).1
    = (@ask Reference.std "What is the total?" Scenarios.loaded).1
  ∧ (@health_check Reference.std
       (@upload_file Reference.std Reference.no_total Scenarios.loaded).2).1
    = (@health_check Reference.std Scenarios.loaded).1.
Proof.
  apply (@upload_file_refused_is_invisible Reference.std Reference.no_total
           "What is the total?" Scenarios.loaded).
  intros (contents & text & df & Hread & Hdec & Hparse & Hreq).
  injection Hread as <-. vm_compute in Hdec. injection Hdec as <-.
  vm_compute in Hparse. injection Hparse as <-.
  apply missing_empty in Hreq. vm_compute in Hreq. discriminate.
Defined.

(** ** The rows a query can see *)

Section preview_rows.
Context `{Env}.

(** X13: [ask] sees of the stored table its header, the dtypes of its
  columns and its first five rows only.  Replacing the stored file by one
  whose table has the same header, the same dtypes and the same first five
  rows does not change the result of [ask]: the rows after the fifth matter
  only through the dtypes pandas infers for the columns. *)
Theorem ask_sees_first_five_rows (q : string) (w : World) (b b' : bytes)
    (df df' : DataFrame) :
  csv_file w = Some b →
  read_csv_file b = inr df →
  read_csv_file b' = inr df' →
  columns df' = columns df →
  dtypes df' = dtypes df →
  take 5 (rows df') = take 5 (rows df) →
  (ask q (set_csv_file (Some b') w)).1 = (ask q w).1.
Proof.
  intros Hb Hr Hr' Hcols Htypes Hrows.
  assert (∀ t, preview t df' = preview t df) as Hsame.
  { intros t. unfold preview, head. by rewrite Hcols, Htypes, Hrows. }
  destruct (ask_spec q w) as [e Ht Hpip|w1 Hi Hb1|w1 b1 e Hi Hb1 Hr1
                              |w1 b1 df1 e Hi Hb1 Hr1 Hp
                              |w1 b1 df1 p e Hi Hb1 Hr1 Hp Hg
                              |w1 b1 df1 p g Hi Hb1 Hr1 Hp Hg];
    try (destruct Hi as [Ht|Ht Hpip]);
    destruct (ask_spec q (set_csv_file (Some b') w))
      as [e' Ht' Hpip'|w2 Hi' Hb'|w2 b2 e' Hi' Hb' Hr2
          |w2 b2 df2 e' Hi' Hb' Hr2 Hp'
          |w2 b2 df2 p' e' Hi' Hb' Hr2 Hp' Hg'
          |w2 b2 df2 p' g' Hi' Hb' Hr2 Hp' Hg'];
    try (destruct Hi' as [Ht'|Ht' Hpip']); fields_all;
    try congruence;
    assert (b1 = b) as -> by congruence;
    assert (b2 = b') as -> by congruence;
    assert (df1 = df) as -> by congruence;
    assert (df2 = df') as -> by congruence;
    rewrite Hsame in Hp'; congruence.
Qed.

End preview_rows.

Lemma ask_sees_first_five_rows_witness :
  (@ask Reference.std "What is the total?"
     (set_csv_file (Some (Reference.unparse_csv Scenarios.seven_rows))
        (set_csv_file (Some (Reference.unparse_csv Scenarios.six_rows))
           Reference.fresh))).1
  = (@ask Reference.std "What is the total?"
       (set_csv_file (Some (Reference.unparse_csv Scenarios.six_rows))
          Reference.fresh)).1.
Proof.
  apply (@ask_sees_first_five_rows Reference.std "What is the total?"
           (set_csv_file (Some (Reference.unparse_csv Scenarios.six_rows))
              Reference.fresh)
           (Reference.unparse_csv Scenarios.six_rows)
           (Reference.unparse_csv Scenarios.seven_rows)
           Scenarios.six_rows Scenarios.seven_rows).
  - reflexivity.
  - vm_compute. reflexivity.
  - vm_compute. reflexivity.
  - reflexivity.
  - reflexivity.
  - reflexivity.
Defined.
